(** * Access policy of the cinema API

    A shallow embedding of [cinema/permissions.py]:

      class IsAdminOrIfAuthenticatedReadOnly(BasePermission):
          def has_permission(self, request, view):
              if request.method in SAFE_METHODS:
                  return True
              return bool(request.user and request.user.is_staff)

    The method reads attributes of Python objects, so the embedding keeps
    the objects in a heap of attribute dictionaries, and threads the heap
    and a possible exception through every step. *)

From Stdlib Require Import String Bool ZArith.
From stdpp Require Import base option gmap strings.

Open Scope string_scope.

(** ** The fragment of the Python object model the method touches *)

Module Py.

Definition loc := positive.

Inductive value : Type :=
| VNone
| VBool (b : bool)
| VStr (s : string)
| VRef (l : loc).

Inductive exn : Type :=
| AttributeError (owner : value) (name : string).

Inductive result (A : Type) : Type :=
| Ok (a : A)
| Raise (e : exn).
Arguments Ok {A} a.
Arguments Raise {A} e.

(** An object is its attribute dictionary; the heap maps references to
    objects, so two references to one object see the same attributes. *)
Abbreviation obj := (gmap string value).
Abbreviation heap := (gmap loc obj).

(** A computation may read and write the heap and may raise. *)
Definition M (A : Type) : Type := heap → result A * heap.

Definition ret {A} (a : A) : M A := λ h, (Ok a, h).

Definition bind {A B} (c : M A) (k : A → M B) : M B :=
  λ h, match c h with
       | (Ok a, h') => k a h'
       | (Raise e, h') => (Raise e, h')
       end.

Definition run {A} (c : M A) (h : heap) : result A := fst (c h).
Definition final {A} (c : M A) (h : heap) : heap := snd (c h).

(** The attribute [name] of [o] in [h], when [o] is a reference to a live
    object that has it. *)
Definition attr (h : heap) (o : value) (name : string) : option value :=
  match o with
  | VRef l => h !! l ≫= (.!! name)
  | _ => None
  end.

(** [o.name]: [None], booleans and strings have none of the attributes
    read here, and the lookup raises [AttributeError]. *)
Definition getattr (o : value) (name : string) : M value :=
  λ h, match attr h o name with
       | Some v => (Ok v, h)
       | None => (Raise (AttributeError o name), h)
       end.

(** [o.name = v] for an ordinary data attribute, an entry of the object's
    own dictionary: the one operation that changes the heap. A write to
    [__class__] or [__dict__], or through a descriptor, is not of this
    kind. The method under study never calls it; it is here to show what a
    write is. *)
Definition setattr (o : value) (name : string) (v : value) : M value :=
  λ h, match o with
       | VRef l =>
           match h !! l with
           | Some d => (Ok VNone, <[l := <[name := v]> d]> h)
           | None => (Raise (AttributeError o name), h)
           end
       | _ => (Raise (AttributeError o name), h)
       end.

(** Truth value testing: [None], [False] and the empty string are false,
    an object without [__bool__] or [__len__] is true. *)
Definition truthy (v : value) : bool :=
  match v with
  | VNone => false
  | VBool b => b
  | VStr s => negb (String.eqb s "")
  | VRef _ => true
  end.

(** [bool(v)] *)
Definition py_bool (v : value) : value := VBool (truthy v).

(** [a == b] without user-defined [__eq__]: identity on objects. *)
Definition py_eq (a b : value) : bool :=
  match a, b with
  | VNone, VNone => true
  | VBool x, VBool y => Bool.eqb x y
  | VStr x, VStr y => String.eqb x y
  | VRef x, VRef y => Pos.eqb x y
  | _, _ => false
  end.

(** [x in t] for a tuple [t] *)
Definition py_in (x : value) (t : list value) : bool :=
  existsb (py_eq x) t.

(** [a and b]: [b] is evaluated only when [a] is true, and the value of
    the expression is one of the operands, not a boolean. *)
Definition py_and (a b : M value) : M value :=
  bind a (λ x, if truthy x then b else ret x).

End Py.

Import Py.

Notation "x <- c ;; k" := (bind c (λ x, k))
  (at level 100, c at next level, right associativity).

(** ** rest_framework *)

(** Modelled from the spec: [SAFE_METHODS] is imported from
    [rest_framework.permissions], which is not part of the sources; the
    safe set is GET, HEAD and OPTIONS. *)
Definition SAFE_METHODS : list value :=
  [VStr "GET"; VStr "HEAD"; VStr "OPTIONS"].

(** [rest_framework.status], as the tests name the two denials. *)
Definition HTTP_401_UNAUTHORIZED : Z := 401.
Definition HTTP_403_FORBIDDEN : Z := 403.

(** ** cinema/permissions.py *)

Module IsAdminOrIfAuthenticatedReadOnly.

Definition has_permission (self request view : value) : M value :=
  method <- getattr request "method" ;;
  if py_in method SAFE_METHODS then ret (VBool true)
  else
    r <- py_and (getattr request "user")
                (user <- getattr request "user" ;; getattr user "is_staff") ;;
    ret (py_bool r).

End IsAdminOrIfAuthenticatedReadOnly.

Import IsAdminOrIfAuthenticatedReadOnly.

(** ** The documented input domain *)

(** The seven methods of the contract, and the four that are not safe. *)
Definition documented_methods : list string :=
  ["GET"; "HEAD"; "OPTIONS"; "POST"; "PUT"; "PATCH"; "DELETE"].
Definition safe_methods : list string := ["GET"; "HEAD"; "OPTIONS"].
Definition unsafe_methods : list string := ["POST"; "PUT"; "PATCH"; "DELETE"].

(** The caller is absent, or present with an elevated flag. *)
Inductive caller : Type :=
| Absent
| Present (elevated : bool).

(** [request.user] holds caller [c]: [None] for an absent caller, an object
    whose [is_staff] is the elevated flag for a present one. *)
Definition caller_is (h : heap) (user : value) (c : caller) : Prop :=
  match c with
  | Absent => user = VNone
  | Present e => attr h user "is_staff" = Some (VBool e)
  end.

(** [request] is a request object of [h] with method [m] and caller [c]. *)
Definition request_is (h : heap) (request : value) (m : string) (c : caller)
  : Prop :=
  attr h request "method" = Some (VStr m) ∧
  match attr h request "user" with
  | Some user => caller_is h user c
  | None => False
  end.

(** A concrete heap for each point of the domain: the request object at
    reference 1 and, for a present caller, the user object at 2. *)
Definition request_ref : value := VRef 1%positive.
Definition user_ref : value := VRef 2%positive.
Definition view_ref : value := VRef 3%positive.
Definition self_ref : value := VRef 4%positive.

Definition heap_of (m : string) (c : caller) : heap :=
  match c with
  | Absent =>
      {[ 1%positive := {[ "method" := VStr m; "user" := VNone ]} ]}
  | Present e =>
      {[ 1%positive := {[ "method" := VStr m; "user" := user_ref ]};
         2%positive := {[ "is_staff" := VBool e ]} ]}
  end.

(** Heaps off the documented domain: a request object with nothing but a
    method, and a request whose method, user and user object are free. *)
Definition bare_request (method : value) : heap :=
  {[ 1%positive := {[ "method" := method ]} ]}.

Definition heap_with (method user : value) (fields : obj) : heap :=
  {[ 1%positive := {[ "method" := method; "user" := user ]};
     2%positive := fields ]}.

(** ** The surrounding pipeline *)

Inductive outcome : Type :=
| Forward
| Deny (status : Z).

(** Modelled from the spec: the request-dispatch pipeline that calls the
    policy once per request is the framework's view dispatch together with
    the project's views and settings, none of which is among the sources
    (only the tests that observe its status codes are). On [true] it
    forwards to the handler; on [false] it answers the unauthenticated
    status when no caller is present and the forbidden status when one
    is. Whether a caller is present is what the authentication collaborator
    resolved and left on the request, in [successful_authenticator] as
    rest_framework has it: the authenticator that accepted the credentials,
    [None] when none did. The truth value of [request.user] does not tell:
    an anonymous request carries a user object of its own. *)
Definition pipeline (self request view : value) : M outcome :=
  granted <- has_permission self request view ;;
  if truthy granted then ret Forward
  else
    authenticator <- getattr request "successful_authenticator" ;;
    ret (Deny (if truthy authenticator then HTTP_403_FORBIDDEN
               else HTTP_401_UNAUTHORIZED)).

(** The user of a request nobody authenticated on: [None], or the
    anonymous user object, whose [is_staff] is [False]. *)
Definition anonymous_user (h : heap) (user : value) : Prop :=
  user = VNone ∨ attr h user "is_staff" = Some (VBool false).

(** [request] as the authentication collaborator hands it to the pipeline
    for method [m] and caller [c]: no authenticator succeeded and the user
    is the anonymous one when the caller is absent; an authenticator
    succeeded and the user carries the elevated flag when one is
    present. *)
Definition dispatched_as (h : heap) (request : value) (m : string)
    (c : caller) : Prop :=
  attr h request "method" = Some (VStr m) ∧
  match attr h request "successful_authenticator", attr h request "user" with
  | Some authenticator, Some user =>
      match c with
      | Absent => authenticator = VNone ∧ anonymous_user h user
      | Present e =>
          truthy authenticator = true ∧
          attr h user "is_staff" = Some (VBool e)
      end
  | _, _ => False
  end.

(** The requests of the tests: a client without credentials, whose request
    carries the anonymous user object, and a client authenticated as a
    user with flag [e]. *)
Definition authenticator_ref : value := VRef 5%positive.

Definition dispatched_heap (m : string) (c : caller) : heap :=
  match c with
  | Absent =>
      {[ 1%positive :=
           {[ "method" := VStr m; "user" := user_ref;
              "successful_authenticator" := VNone ]};
         2%positive :=
           {[ "is_staff" := VBool false;
              "is_authenticated" := VBool false ]} ]}
  | Present e =>
      {[ 1%positive :=
           {[ "method" := VStr m; "user" := user_ref;
              "successful_authenticator" := authenticator_ref ]};
         2%positive :=
           {[ "is_staff" := VBool e; "is_authenticated" := VBool true ]};
         5%positive := ∅ ]}
  end.

(** ** The rule of the contract *)

(** The decision as the contract words it: a safe method is granted to
    everybody, any other method to a present, elevated caller only. It is
    compared with [has_permission] in [has_permission_permit]. *)
Definition permit (m : string) (c : caller) : bool :=
  if bool_decide (m ∈ safe_methods) then true
  else match c with
       | Present elevated => elevated
       | Absent => false
       end.

(** A computation is read-only when it hands back the heap it was given,
    whether it returns or raises. *)
Definition read_only {A} (c : M A) : Prop := ∀ h, final c h = h.

(** ** cinema/tests/test_movie_api.py: the fixtures *)

Module test_movie_api.

(** A keyword argument of [Model.objects.create]: a string, an integer, a
    [datetime] or a model instance. *)
Inductive field (Inst : Type) : Type :=
| FStr (s : string)
| FInt (n : Z)
| FDateTime (year month day hour minute second : Z)
| FInst (i : Inst).
Arguments FStr {Inst} s.
Arguments FInt {Inst} n.
Arguments FDateTime {Inst} year month day hour minute second.
Arguments FInst {Inst} i.

(** [d.update(p)]: the keys of [p] are set in [d], the others stay. *)
Definition dict_update {V} (d p : gmap string V) : gmap string V := p ∪ d.

Section Fixtures.

(** The models and the ORM are not among the sources: the database state,
    the instances, the errors and [Model.objects.create] itself are
    parameters, the model being named by a string. *)
Context {DB Inst Err : Type}.
Variable objects_create :
  string → gmap string (field Inst) → DB → (Err + Inst) * DB.

Definition sample_movie (params : gmap string (field Inst))
  : DB → (Err + Inst) * DB :=
  let defaults : gmap string (field Inst) :=
    {[ "title" := FStr "Sample movie";
       "description" := FStr "Sample description";
       "duration" := FInt 90 ]} in
  let defaults := dict_update defaults params in
  objects_create "Movie" defaults.

Definition sample_genre (params : gmap string (field Inst))
  : DB → (Err + Inst) * DB :=
  let defaults : gmap string (field Inst) := {[ "name" := FStr "Drama" ]} in
  let defaults := dict_update defaults params in
  objects_create "Genre" defaults.

Definition sample_actor (params : gmap string (field Inst))
  : DB → (Err + Inst) * DB :=
  let defaults : gmap string (field Inst) :=
    {[ "first_name" := FStr "George"; "last_name" := FStr "Clooney" ]} in
  let defaults := dict_update defaults params in
  objects_create "Actor" defaults.

Definition sample_movie_session (movie : field Inst)
    (params : gmap string (field Inst)) : DB → (Err + Inst) * DB :=
  λ db,
    match objects_create "CinemaHall"
            {[ "name" := FStr "Blue"; "rows" := FInt 20;
               "seats_in_row" := FInt 20 ]} db with
    | (inl e, db') => (inl e, db')
    | (inr cinema_hall, db') =>
        let defaults : gmap string (field Inst) :=
          {[ "show_time" := FDateTime 2022 6 2 14 0 0;
             "movie" := movie;
             "cinema_hall" := FInst cinema_hall ]} in
        let defaults := dict_update defaults params in
        objects_create "MovieSession" defaults db'
    end.

End Fixtures.

(** An ORM to run the fixtures on: the database is the list of the rows
    created so far, newest first, an instance is the number of its row,
    and creating a row of a model in [refused] fails. *)
Definition recording_create (refused : list string) (model : string)
    (kwargs : gmap string (field nat))
    (db : list (string * gmap string (field nat)))
  : (string + nat) * list (string * gmap string (field nat)) :=
  if bool_decide (model ∈ refused) then (inl model, db)
  else (inr (length db), (model, kwargs) :: db).

End test_movie_api.

(** * Properties *)

(** ** Reading leaves the heap alone *)

Create HintDb read_only.

Section ReadOnly.

Context {A B : Type}.

Lemma read_only_ret (a : A) : read_only (ret a).
Proof. by intros h. Qed.

Lemma read_only_bind (c : M A) (k : A → M B) :
  read_only c → (∀ a, read_only (k a)) → read_only (bind c k).
Proof.
  intros Hc Hk h. specialize (Hc h). unfold final, bind in *.
  destruct (c h) as [[a|e] h']; simpl in *; subst h'; [apply Hk|done].
Qed.

Lemma read_only_if (b : bool) (c1 c2 : M A) :
  read_only c1 → read_only c2 → read_only (if b then c1 else c2).
Proof. by destruct b. Qed.

End ReadOnly.

Lemma read_only_getattr o name : read_only (getattr o name).
Proof. intros h. unfold final, getattr. by destruct (attr h o name). Qed.

Lemma read_only_py_and a b : read_only a → read_only b → read_only (py_and a b).
Proof.
  intros Ha Hb. apply read_only_bind; [done|].
  intros x. apply read_only_if; [done|apply read_only_ret].
Qed.

#[local] Hint Resolve read_only_ret read_only_bind read_only_if
  read_only_getattr read_only_py_and : read_only.

Lemma has_permission_read_only self request view :
  read_only (has_permission self request view).
Proof. unfold has_permission. auto 10 with read_only. Qed.

(** A write is not read-only: the property above is not one every
    computation of the model has. *)
Example setattr_not_read_only :
  ¬ read_only (setattr user_ref "is_staff" (VBool true)).
Proof.
  intros H. specialize (H (heap_of "POST" (Present false))).
  apply (f_equal (λ h, attr h user_ref "is_staff")) in H.
  vm_compute in H. discriminate.
Qed.

Lemma getattr_Ok h o name v :
  attr h o name = Some v → getattr o name h = (Ok v, h).
Proof. unfold getattr. by intros ->. Qed.

(** ** The method against the rule *)

Lemma py_in_SAFE_METHODS m :
  py_in (VStr m) SAFE_METHODS = bool_decide (m ∈ safe_methods).
Proof.
  unfold py_in, SAFE_METHODS, safe_methods; simpl.
  destruct (String.eqb_spec m "GET") as [->|HG]; [done|].
  destruct (String.eqb_spec m "HEAD") as [->|HH]; [done|].
  destruct (String.eqb_spec m "OPTIONS") as [->|HO]; [done|].
  symmetry. apply bool_decide_eq_false.
  rewrite !elem_of_cons, elem_of_nil. tauto.
Qed.

Lemma caller_is_truthy h user e :
  caller_is h user (Present e) → truthy user = true.
Proof. destruct user; simpl; done. Qed.

Lemma has_permission_permit h self request view m c :
  request_is h request m c →
  has_permission self request view h = (Ok (VBool (permit m c)), h).
Proof.
  intros [Hm Hu].
  destruct (attr h request "user") as [user|] eqn:Euser; [|done].
  unfold has_permission, py_and, bind, ret, permit.
  rewrite (getattr_Ok _ _ _ _ Hm), py_in_SAFE_METHODS.
  destruct (bool_decide (m ∈ safe_methods)); [done|].
  rewrite (getattr_Ok _ _ _ _ Euser).
  destruct c as [|e]; simpl in Hu.
  - by subst user.
  - rewrite (caller_is_truthy _ _ _ Hu), (getattr_Ok _ _ _ _ Euser).
    by rewrite (getattr_Ok _ _ _ _ Hu).
Qed.

Lemma run_has_permission h self request view m c :
  request_is h request m c →
  run (has_permission self request view) h = Ok (VBool (permit m c)).
Proof. intros H. unfold run. by rewrite (has_permission_permit _ _ _ _ _ _ H). Qed.

Lemma permit_safe m c : m ∈ safe_methods → permit m c = true.
Proof. intros H. unfold permit. by rewrite bool_decide_eq_true_2. Qed.

Lemma permit_not_safe m c :
  m ∉ safe_methods →
  permit m c = match c with Present e => e | Absent => false end.
Proof. intros H. unfold permit. by rewrite bool_decide_eq_false_2. Qed.

Lemma documented_methods_split :
  documented_methods = (safe_methods ++ unsafe_methods)%list.
Proof. reflexivity. Qed.

Lemma unsafe_not_safe m : m ∈ unsafe_methods → m ∉ safe_methods.
Proof.
  unfold unsafe_methods. rewrite !elem_of_cons, elem_of_nil.
  intros [->|[->|[->|[->|[]]]]]; compute_done.
Qed.

Lemma heap_of_request_is m c : request_is (heap_of m c) request_ref m c.
Proof. destruct c; split; reflexivity. Qed.

(** ** The scenarios of the contract and of the tests *)

Example scenario_GET_anonymous :
  run (has_permission self_ref request_ref view_ref) (heap_of "GET" Absent)
  = Ok (VBool true).
Proof. reflexivity. Qed.

Example scenario_POST_anonymous :
  run (has_permission self_ref request_ref view_ref) (heap_of "POST" Absent)
  = Ok (VBool false).
Proof. reflexivity. Qed.

Example scenario_POST_regular_user :
  run (has_permission self_ref request_ref view_ref)
      (heap_of "POST" (Present false))
  = Ok (VBool false).
Proof. reflexivity. Qed.

Example scenario_POST_admin :
  run (has_permission self_ref request_ref view_ref)
      (heap_of "POST" (Present true))
  = Ok (VBool true).
Proof. reflexivity. Qed.

(** What the guard [request.user and ...] and the conversion [bool(...)]
    are for: on [None] the attribute read alone raises, and the guarded
    expression alone is [None], not a boolean. *)
Example is_staff_of_None_raises h :
  run (getattr VNone "is_staff") h = Raise (AttributeError VNone "is_staff").
Proof. reflexivity. Qed.

Example guarded_read_of_None_is_None :
  run (py_and (getattr request_ref "user")
              (user <- getattr request_ref "user" ;; getattr user "is_staff"))
      (heap_of "POST" Absent)
  = Ok VNone.
Proof. reflexivity. Qed.

(** [test_create_movie_unauthorized], [test_create_movie_forbidden_for_regular_user]
    and [test_create_movie_allowed_for_admin] of [MovieCreatePermissionTests],
    up to the permission check. *)
Example test_create_movie_unauthorized :
  run (pipeline self_ref request_ref view_ref) (dispatched_heap "POST" Absent)
  = Ok (Deny HTTP_401_UNAUTHORIZED).
Proof. reflexivity. Qed.

Example test_create_movie_forbidden_for_regular_user :
  run (pipeline self_ref request_ref view_ref)
      (dispatched_heap "POST" (Present false))
  = Ok (Deny HTTP_403_FORBIDDEN).
Proof. reflexivity. Qed.

Example test_create_movie_allowed_for_admin :
  run (pipeline self_ref request_ref view_ref)
      (dispatched_heap "POST" (Present true))
  = Ok Forward.
Proof. reflexivity. Qed.

(** [test_movie_list_allowed] of [MovieUnauthenticatedReadOnlyTests], up to
    the permission check. *)
Example test_movie_list_allowed :
  run (pipeline self_ref request_ref view_ref) (dispatched_heap "GET" Absent)
  = Ok Forward.
Proof. reflexivity. Qed.

(** The anonymous user object is true and not staff: [has_permission]
    denies it like any user who is not staff, and only the pipeline tells
    the two apart. *)
Example anonymous_user_object_is_denied :
  run (has_permission self_ref request_ref view_ref)
      (dispatched_heap "POST" Absent)
  = Ok (VBool false).
Proof. reflexivity. Qed.

Lemma dispatched_heap_dispatched_as m c :
  dispatched_as (dispatched_heap m c) request_ref m c.
Proof.
  destruct c; (split; [reflexivity|]).
  - split; [reflexivity|]. right. reflexivity.
  - split; reflexivity.
Qed.

(** The policy on a dispatched request: the anonymous user, [None] or
    object, is an absent caller. *)
Lemma has_permission_dispatched h self request view m c :
  dispatched_as h request m c →
  has_permission self request view h = (Ok (VBool (permit m c)), h).
Proof.
  intros [Hm H].
  destruct (attr h request "successful_authenticator") as [a|]; [|done].
  destruct (attr h request "user") as [user|] eqn:Euser; [|done].
  destruct c as [|e].
  - destruct H as [_ [->|Hstaff]].
    + apply has_permission_permit. split; [done|]. by rewrite Euser.
    + rewrite (has_permission_permit h self request view m (Present false)).
      * unfold permit. by destruct (bool_decide _).
      * split; [done|]. by rewrite Euser.
  - destruct H as [_ Hstaff].
    apply has_permission_permit. split; [done|]. by rewrite Euser.
Qed.

(** ** The claims *)

(** C1. For an unsafe method (POST, PUT, PATCH, DELETE) and any caller,
    [has_permission] returns [True] exactly when the caller is present and
    elevated, and [False] exactly when the caller is absent or present but
    not elevated. *)
Theorem unsafe_method_iff_elevated h self request view m c :
  request_is h request m c →
  m ∈ unsafe_methods →
  (run (has_permission self request view) h = Ok (VBool true)
   ↔ c = Present true) ∧
  (run (has_permission self request view) h = Ok (VBool false)
   ↔ c = Absent ∨ c = Present false).
Proof.
  intros Hreq Hm%unsafe_not_safe.
  rewrite (run_has_permission _ _ _ _ _ _ Hreq), (permit_not_safe _ _ Hm).
  destruct c as [|[]]; split; split; intros H;
    try done; try (by left); try (by right); by destruct H.
Qed.

Lemma unsafe_method_iff_elevated_witness :
  (run (has_permission self_ref request_ref view_ref)
       (heap_of "DELETE" (Present true)) = Ok (VBool true)
   ↔ Present true = Present true) ∧
  (run (has_permission self_ref request_ref view_ref)
       (heap_of "DELETE" (Present true)) = Ok (VBool false)
   ↔ Present true = Absent ∨ Present true = Present false).
Proof.
  apply (unsafe_method_iff_elevated _ _ _ _ "DELETE" (Present true)).
  - split; reflexivity.
  - compute_done.
Defined.

(** C2. For a safe method (GET, HEAD, OPTIONS) [has_permission] returns
    [True] for every caller: absent, elevated or not elevated. *)
Theorem safe_method_granted h self request view m c :
  request_is h request m c →
  m ∈ safe_methods →
  run (has_permission self request view) h = Ok (VBool true).
Proof.
  intros Hreq Hm.
  by rewrite (run_has_permission _ _ _ _ _ _ Hreq), (permit_safe _ _ Hm).
Qed.

Lemma safe_method_granted_witness :
  run (has_permission self_ref request_ref view_ref) (heap_of "HEAD" Absent)
  = Ok (VBool true).
Proof.
  apply (safe_method_granted _ _ _ _ "HEAD" Absent).
  - split; reflexivity.
  - compute_done.
Defined.

(** C3. On the documented domain (one of the seven methods, a caller absent
    or present with either flag) [has_permission] produces a value and does
    not raise; in particular an absent caller with an unsafe method does
    not make it read [is_staff] of [None]. *)
Theorem has_permission_total h self request view m c :
  request_is h request m c →
  m ∈ documented_methods →
  (∃ v, run (has_permission self request view) h = Ok v) ∧
  (∀ e, run (has_permission self request view) h ≠ Raise e).
Proof.
  intros Hreq _. rewrite (run_has_permission _ _ _ _ _ _ Hreq).
  split; [by eexists|done].
Qed.

Lemma has_permission_total_witness :
  (∃ v, run (has_permission self_ref request_ref view_ref)
            (heap_of "POST" Absent) = Ok v) ∧
  (∀ e, run (has_permission self_ref request_ref view_ref)
            (heap_of "POST" Absent) ≠ Raise e).
Proof.
  apply (has_permission_total _ _ _ _ "POST" Absent).
  - split; reflexivity.
  - compute_done.
Defined.

(** C4. When [has_permission] returns [False] and no caller is present the
    pipeline answers 401; when it returns [False] and the caller is present
    but not elevated the pipeline answers 403; and a denial is always one of
    these two, each for its own reason. *)
Theorem pipeline_denial_status h self request view m c :
  dispatched_as h request m c →
  (run (has_permission self request view) h = Ok (VBool false) →
   c = Absent →
   run (pipeline self request view) h = Ok (Deny HTTP_401_UNAUTHORIZED)) ∧
  (run (has_permission self request view) h = Ok (VBool false) →
   c = Present false →
   run (pipeline self request view) h = Ok (Deny HTTP_403_FORBIDDEN)) ∧
  (∀ status,
     run (pipeline self request view) h = Ok (Deny status) →
     run (has_permission self request view) h = Ok (VBool false) ∧
     (status = HTTP_401_UNAUTHORIZED ∧ c = Absent ∨
      status = HTTP_403_FORBIDDEN ∧ c = Present false)).
Proof.
  intros Hreq. pose proof Hreq as [_ Hc].
  unfold run, pipeline, bind.
  rewrite (has_permission_dispatched _ _ _ _ _ _ Hreq). cbn [fst truthy].
  destruct (attr h request "successful_authenticator")
    as [authenticator|] eqn:Eauth; [|done].
  destruct (attr h request "user") as [user|]; [|done].
  destruct (permit m c) eqn:Ep.
  { split; [done|split; [done|]]. intros status [=]. }
  rewrite (getattr_Ok _ _ _ _ Eauth). cbn [fst ret].
  destruct c as [|e].
  - destruct Hc as [-> _]. cbn [truthy].
    split; [done|split; [done|]].
    intros status [= <-]. split; [done|by left].
  - destruct Hc as [-> _].
    assert (e = false) as ->.
    { unfold permit in Ep. by destruct (bool_decide _). }
    split; [done|split; [done|]].
    intros status [= <-]. split; [done|by right].
Qed.

Lemma pipeline_denial_status_witness :
  (run (has_permission self_ref request_ref view_ref)
       (dispatched_heap "POST" Absent) = Ok (VBool false) →
   Absent = Absent →
   run (pipeline self_ref request_ref view_ref)
       (dispatched_heap "POST" Absent) = Ok (Deny HTTP_401_UNAUTHORIZED)) ∧
  (run (has_permission self_ref request_ref view_ref)
       (dispatched_heap "POST" Absent) = Ok (VBool false) →
   Absent = Present false →
   run (pipeline self_ref request_ref view_ref)
       (dispatched_heap "POST" Absent) = Ok (Deny HTTP_403_FORBIDDEN)) ∧
  (∀ status,
     run (pipeline self_ref request_ref view_ref)
         (dispatched_heap "POST" Absent) = Ok (Deny status) →
     run (has_permission self_ref request_ref view_ref)
         (dispatched_heap "POST" Absent) = Ok (VBool false) ∧
     (status = HTTP_401_UNAUTHORIZED ∧ Absent = Absent ∨
      status = HTTP_403_FORBIDDEN ∧ Absent = Present false)).
Proof.
  apply (pipeline_denial_status _ _ _ _ "POST" Absent).
  split; [reflexivity|]. split; [reflexivity|]. right. reflexivity.
Defined.

(** C5. [has_permission] is deterministic and keeps no hidden state: it
    hands back the heap it was given, so evaluating it again on what the
    first evaluation left behind gives the same result, whatever the
    arguments and the heap are. *)
Theorem has_permission_deterministic h self request view :
  final (has_permission self request view) h = h ∧
  run (has_permission self request view)
      (final (has_permission self request view) h)
  = run (has_permission self request view) h.
Proof.
  pose proof (has_permission_read_only self request view h) as H.
  by rewrite H.
Qed.

(** C6. The result does not depend on the target resource: two calls that
    differ only in the [view] argument return the same result and leave the
    same heap. *)
Theorem has_permission_ignores_view h self request view1 view2 :
  has_permission self request view1 h = has_permission self request view2 h.
Proof. reflexivity. Qed.

(** C7. For every method and caller [has_permission] returns the boolean
    [True] or the boolean [False], never [None] nor the caller object. *)
Theorem has_permission_returns_bool h self request view m c :
  request_is h request m c →
  run (has_permission self request view) h = Ok (VBool true) ∨
  run (has_permission self request view) h = Ok (VBool false).
Proof.
  intros Hreq. rewrite (run_has_permission _ _ _ _ _ _ Hreq).
  destruct (permit m c); [by left|by right].
Qed.

Lemma has_permission_returns_bool_witness :
  run (has_permission self_ref request_ref view_ref)
      (heap_of "PATCH" Absent) = Ok (VBool true) ∨
  run (has_permission self_ref request_ref view_ref)
      (heap_of "PATCH" Absent) = Ok (VBool false).
Proof.
  apply (has_permission_returns_bool _ _ _ _ "PATCH" Absent).
  split; reflexivity.
Defined.

(** C8. [has_permission] never mutates the caller: every attribute of every
    object, the caller's [is_staff] among them, reads the same after the
    call as before, and nothing else in the heap changes either. *)
Theorem has_permission_preserves_heap h self request view :
  (∀ o name,
     attr (final (has_permission self request view) h) o name
     = attr h o name) ∧
  final (has_permission self request view) h = h.
Proof.
  pose proof (has_permission_read_only self request view h) as H.
  by rewrite H.
Qed.

(** C9. Any method string outside the safe set, documented or not (TRACE,
    CONNECT, a lowercase "get"), is granted exactly to a present, elevated
    caller. *)
Theorem other_method_iff_elevated h self request view m c :
  request_is h request m c →
  m ∉ safe_methods →
  (run (has_permission self request view) h = Ok (VBool true)
   ↔ c = Present true).
Proof.
  intros Hreq Hm.
  rewrite (run_has_permission _ _ _ _ _ _ Hreq), (permit_not_safe _ _ Hm).
  destruct c as [|[]]; split; intros H; done.
Qed.

Lemma other_method_iff_elevated_witness :
  run (has_permission self_ref request_ref view_ref)
      (heap_of "get" Absent) = Ok (VBool true)
  ↔ Absent = Present true.
Proof.
  apply (other_method_iff_elevated _ _ _ _ "get" Absent).
  - split; reflexivity.
  - compute_done.
Defined.

(** C10. Elevation is monotone: a method granted to some caller is granted
    to a present, elevated caller as well. *)
Theorem elevation_monotone h h' self request request' view m c :
  request_is h request m c →
  request_is h' request' m (Present true) →
  run (has_permission self request view) h = Ok (VBool true) →
  run (has_permission self request' view) h' = Ok (VBool true).
Proof.
  intros Hreq Hreq'.
  rewrite (run_has_permission _ _ _ _ _ _ Hreq).
  rewrite (run_has_permission _ _ _ _ _ _ Hreq').
  intros _. unfold permit. by destruct (bool_decide _).
Qed.

Lemma elevation_monotone_witness :
  run (has_permission self_ref request_ref view_ref)
      (heap_of "OPTIONS" (Present true)) = Ok (VBool true).
Proof.
  apply (elevation_monotone (heap_of "OPTIONS" Absent) _ _ request_ref _ _
           "OPTIONS" Absent).
  - split; reflexivity.
  - split; reflexivity.
  - reflexivity.
Defined.

(** ** The method on arbitrary requests *)

(** [x in SAFE_METHODS] holds of the three strings and of nothing else. *)
Lemma py_eq_eq a b : py_eq a b = true ↔ a = b.
Proof.
  destruct a, b; simpl; try (split; [discriminate|congruence]); try done.
  - rewrite Bool.eqb_true_iff. split; congruence.
  - rewrite String.eqb_eq. split; congruence.
  - rewrite Pos.eqb_eq. split; congruence.
Qed.

Lemma py_in_elem_of x t : py_in x t = true ↔ x ∈ t.
Proof.
  unfold py_in. rewrite existsb_exists, list_elem_of_In.
  split.
  - by intros [y [Hy ->%py_eq_eq]].
  - intros H. exists x. split; [done|by apply py_eq_eq].
Qed.

Lemma py_in_not_elem_of x t : x ∉ t → py_in x t = false.
Proof.
  intros H. destruct (py_in x t) eqn:E; [|done].
  by apply py_in_elem_of in E.
Qed.

(** The method, branch by branch, on any heap. *)
Lemma has_permission_cases h self request view :
  has_permission self request view h =
  (match attr h request "method" with
   | None => Raise (AttributeError request "method")
   | Some method =>
       if py_in method SAFE_METHODS then Ok (VBool true)
       else match attr h request "user" with
            | None => Raise (AttributeError request "user")
            | Some user =>
                if truthy user then
                  match attr h user "is_staff" with
                  | Some v => Ok (VBool (truthy v))
                  | None => Raise (AttributeError user "is_staff")
                  end
                else Ok (VBool false)
            end
   end, h).
Proof.
  unfold has_permission, py_and, bind, ret, getattr, py_bool.
  destruct (attr h request "method") as [method|]; [|done].
  destruct (py_in method SAFE_METHODS); [done|].
  destruct (attr h request "user") as [user|] eqn:Euser; [|done].
  simpl. destruct (truthy user) eqn:Etruthy; [|by rewrite Etruthy].
  rewrite Euser. simpl. by destruct (attr h user "is_staff").
Qed.

Lemma attr_truthy h o name v : attr h o name = Some v → truthy o = true.
Proof. by destruct o. Qed.

(** Attribute reads after a write. *)
Lemma attr_setattr_ne h o name v o' name' :
  name' ≠ name →
  attr (final (setattr o name v) h) o' name' = attr h o' name'.
Proof.
  intros Hne. unfold final, setattr.
  destruct o as [| | |l]; try done.
  destruct (h !! l) as [d|] eqn:El; [|done]. simpl.
  destruct o' as [| | |l']; try done. simpl.
  destruct (decide (l = l')) as [<-|Hl].
  - rewrite lookup_insert_eq, El. simpl. by rewrite lookup_insert_ne.
  - by rewrite lookup_insert_ne.
Qed.

Lemma attr_setattr_eq h o name v w :
  attr h o name = Some w →
  attr (final (setattr o name v) h) o name = Some v.
Proof.
  unfold final, setattr, attr. destruct o as [| | |l]; try done.
  destruct (h !! l) as [d|] eqn:El; [|done]. simpl. intros _.
  rewrite lookup_insert_eq. simpl. by rewrite lookup_insert_eq.
Qed.

(** Closes [x ∉ SAFE_METHODS] for a concrete [x] by running [py_in]. *)
Ltac not_in_SAFE_METHODS :=
  let H := fresh in intros H; apply py_in_elem_of in H; discriminate H.

(** X1. A safe method is granted before [request.user] is looked at: the
    answer is [True] on a request that has no [user] attribute at all, or
    whose user has no [is_staff], and the heap is handed back unchanged. *)
Theorem safe_method_never_reads_user h self request view m :
  attr h request "method" = Some (VStr m) →
  m ∈ safe_methods →
  has_permission self request view h = (Ok (VBool true), h).
Proof.
  intros Hm Hsafe. rewrite has_permission_cases, Hm, py_in_SAFE_METHODS.
  by rewrite bool_decide_eq_true_2.
Qed.

Lemma safe_method_never_reads_user_witness :
  attr (bare_request (VStr "GET")) request_ref "user" = None ∧
  has_permission self_ref request_ref view_ref (bare_request (VStr "GET"))
  = (Ok (VBool true), bare_request (VStr "GET")).
Proof.
  split; [reflexivity|].
  apply (safe_method_never_reads_user _ _ _ _ "GET").
  - reflexivity.
  - compute_done.
Defined.

(** X2. [has_permission] raises in three cases and no other: the request
    has no [method]; the method is not safe and the request has no [user];
    the method is not safe, the user is true and has no [is_staff]. The
    exception is the [AttributeError] of the attribute that is missing. *)
Theorem has_permission_raises_iff h self request view e :
  run (has_permission self request view) h = Raise e ↔
  (attr h request "method" = None ∧ e = AttributeError request "method") ∨
  (∃ method,
     attr h request "method" = Some method ∧ (method ∉ SAFE_METHODS) ∧
     ((attr h request "user" = None ∧ e = AttributeError request "user") ∨
      (∃ user,
         attr h request "user" = Some user ∧ truthy user = true ∧
         attr h user "is_staff" = None ∧
         e = AttributeError user "is_staff"))).
Proof.
  unfold run. rewrite has_permission_cases. cbn [fst]. split.
  - destruct (attr h request "method") as [method|]; [|intros [= <-]; by left].
    destruct (py_in method SAFE_METHODS) eqn:Ein; [done|].
    intros H. right. exists method. split; [done|]. split.
    { intros Hin%py_in_elem_of. congruence. }
    destruct (attr h request "user") as [user|]; [|injection H as <-; by left].
    destruct (truthy user) eqn:Et; [|done].
    destruct (attr h user "is_staff") eqn:Es; [done|].
    injection H as <-. right. by exists user.
  - intros [[-> ->]|[method [-> [Hin [[-> ->]|[user [-> [-> [-> ->]]]]]]]]];
      try done; by rewrite (py_in_not_elem_of _ _ Hin).
Qed.

(** X3. For a method that is not safe and a user object, the answer is the
    truth value of [is_staff], whatever [is_staff] holds: [None] and the
    empty string deny, a non-empty string grants. *)
Theorem is_staff_is_coerced h self request view method user v :
  attr h request "method" = Some method →
  method ∉ SAFE_METHODS →
  attr h request "user" = Some user →
  attr h user "is_staff" = Some v →
  run (has_permission self request view) h = Ok (VBool (truthy v)).
Proof.
  intros Hm Hin Hu Hs. unfold run.
  rewrite has_permission_cases, Hm, (py_in_not_elem_of _ _ Hin), Hu.
  by rewrite (attr_truthy _ _ _ _ Hs), Hs.
Qed.

Lemma is_staff_is_coerced_witness :
  run (has_permission self_ref request_ref view_ref)
      (heap_with (VStr "POST") user_ref {[ "is_staff" := VStr "yes" ]})
  = Ok (VBool (truthy (VStr "yes"))).
Proof.
  apply (is_staff_is_coerced _ _ _ _ (VStr "POST") user_ref (VStr "yes")).
  - reflexivity.
  - not_in_SAFE_METHODS.
  - reflexivity.
  - reflexivity.
Defined.

(** X4. For a method that is not safe, any false value of [request.user]
    ([None], [False], the empty string) is denied, and [is_staff] is not
    read on it. *)
Theorem false_user_is_denied h self request view method user :
  attr h request "method" = Some method →
  method ∉ SAFE_METHODS →
  attr h request "user" = Some user →
  truthy user = false →
  run (has_permission self request view) h = Ok (VBool false).
Proof.
  intros Hm Hin Hu Ht. unfold run.
  by rewrite has_permission_cases, Hm, (py_in_not_elem_of _ _ Hin), Hu, Ht.
Qed.

Lemma false_user_is_denied_witness :
  run (has_permission self_ref request_ref view_ref)
      (heap_with (VStr "DELETE") (VStr "") ∅)
  = Ok (VBool false).
Proof.
  apply (false_user_is_denied _ _ _ _ (VStr "DELETE") (VStr "")).
  - reflexivity.
  - not_in_SAFE_METHODS.
  - reflexivity.
  - reflexivity.
Defined.

(** X5. The decision reads three attributes and nothing else: two heaps
    that agree on the request's [method] and [user] and on the user's
    [is_staff] give the same result, whatever else differs. *)
Theorem has_permission_footprint h1 h2 self request view :
  attr h1 request "method" = attr h2 request "method" →
  attr h1 request "user" = attr h2 request "user" →
  (∀ user, attr h1 request "user" = Some user →
           attr h1 user "is_staff" = attr h2 user "is_staff") →
  run (has_permission self request view) h1
  = run (has_permission self request view) h2.
Proof.
  intros Hm Hu Hs. unfold run. rewrite !has_permission_cases. cbn [fst].
  rewrite <- Hm, <- Hu.
  destruct (attr h1 request "method") as [method|]; [|done].
  destruct (py_in method SAFE_METHODS); [done|].
  destruct (attr h1 request "user") as [user|]; [|done].
  by rewrite (Hs user eq_refl).
Qed.

Lemma has_permission_footprint_witness :
  run (has_permission self_ref request_ref view_ref)
      (heap_with (VStr "POST") user_ref
         {[ "is_staff" := VBool false; "is_superuser" := VBool true ]})
  = run (has_permission self_ref request_ref view_ref)
      (heap_with (VStr "POST") user_ref
         {[ "is_staff" := VBool false; "is_superuser" := VBool false ]}).
Proof.
  apply has_permission_footprint.
  - reflexivity.
  - reflexivity.
  - intros user [= <-]. reflexivity.
Defined.

(** X7. A write to the caller's [is_staff] decides the next evaluation:
    after [user.is_staff = e'] the answer is the one for a caller with
    flag [e'], whatever the flag was before. *)
Theorem is_staff_write_takes_effect h self request view m e e' user :
  request_is h request m (Present e) →
  attr h request "user" = Some user →
  run (has_permission self request view)
      (final (setattr user "is_staff" (VBool e')) h)
  = Ok (VBool (permit m (Present e'))).
Proof.
  intros [Hm Hc] Hu. rewrite Hu in Hc. simpl in Hc.
  apply run_has_permission. split.
  - by rewrite attr_setattr_ne.
  - rewrite attr_setattr_ne, Hu by done. simpl.
    by apply attr_setattr_eq with (VBool e).
Qed.

Lemma is_staff_write_takes_effect_witness :
  run (has_permission self_ref request_ref view_ref)
      (final (setattr user_ref "is_staff" (VBool false))
             (heap_of "PUT" (Present true)))
  = Ok (VBool (permit "PUT" (Present false))).
Proof.
  apply (is_staff_write_takes_effect _ _ _ _ "PUT" true false user_ref).
  - split; reflexivity.
  - reflexivity.
Defined.

(** The three exceptions of X2 do occur. *)
Example raises_without_method :
  run (has_permission self_ref request_ref view_ref) ∅
  = Raise (AttributeError request_ref "method").
Proof. reflexivity. Qed.

Example raises_without_user :
  run (has_permission self_ref request_ref view_ref)
      (bare_request (VStr "POST"))
  = Raise (AttributeError request_ref "user").
Proof. reflexivity. Qed.

Example raises_without_is_staff :
  run (has_permission self_ref request_ref view_ref)
      (heap_with (VStr "POST") user_ref ∅)
  = Raise (AttributeError user_ref "is_staff").
Proof. reflexivity. Qed.

(** ** The fixtures of the tests *)

Import test_movie_api.

Lemma lookup_dict_update {V} (d p : gmap string V) k :
  dict_update d p !! k = match p !! k with
                         | Some v => Some v
                         | None => d !! k
                         end.
Proof.
  unfold dict_update. rewrite lookup_union.
  by destruct (p !! k), (d !! k).
Qed.

(** Looks a key up in a literal dictionary, and in an updated dictionary
    of defaults. *)
Ltac lookup_literal :=
  repeat (rewrite lookup_insert_ne by naive_solver);
  first [ by rewrite lookup_insert_eq
        | by rewrite lookup_singleton_eq
        | by rewrite lookup_singleton_ne by naive_solver ].

Ltac lookup_defaults :=
  rewrite lookup_dict_update;
  match goal with
  | H : ?p !! ?k = _ |- context [?p !! ?k] => rewrite H; try done
  | |- context [match ?p !! ?k with _ => _ end] =>
      destruct (p !! k); [done|]
  | |- context [default _ (?p !! ?k)] =>
      destruct (p !! k); [done|]; simpl
  end;
  lookup_literal.

Section FixtureProperties.

Context {DB Inst Err : Type}.
Variable create : string → gmap string (field Inst) → DB → (Err + Inst) * DB.

(** X8. [sample_movie], called with keywords [params], makes one [Movie.objects.create] call. A
    keyword given by the caller reaches it as given; [title], [description]
    and [duration] are filled with "Sample movie", "Sample description" and
    90 only where the caller gave none; no other keyword is added. *)
Theorem sample_movie_kwargs (params : gmap string (field Inst)) db :
  ∃ kwargs : gmap string (field Inst),
    sample_movie create params db = create "Movie" kwargs db ∧
    (∀ k v, params !! k = Some v → kwargs !! k = Some v) ∧
    (params !! "title" = None →
     kwargs !! "title" = Some (FStr "Sample movie")) ∧
    (params !! "description" = None →
     kwargs !! "description" = Some (FStr "Sample description")) ∧
    (params !! "duration" = None → kwargs !! "duration" = Some (FInt 90)) ∧
    (∀ k, k ∉ ["title"; "description"; "duration"] →
          kwargs !! k = params !! k).
Proof.
  eexists. split; [reflexivity|].
  split; [|split; [|split; [|split]]].
  - intros k v H. lookup_defaults.
  - intros H. lookup_defaults.
  - intros H. lookup_defaults.
  - intros H. lookup_defaults.
  - intros k. rewrite !elem_of_cons, elem_of_nil. intros Hk.
    lookup_defaults.
Qed.

(** X9. [sample_genre] and [sample_actor] work the same way: one [create]
    call, the caller's keywords as given, and "Drama", "George" and
    "Clooney" for a [name], [first_name] and [last_name] not given. *)
Theorem sample_genre_actor_kwargs (params : gmap string (field Inst)) db :
  (∃ kwargs : gmap string (field Inst),
     sample_genre create params db = create "Genre" kwargs db ∧
     (∀ k v, params !! k = Some v → kwargs !! k = Some v) ∧
     (params !! "name" = None → kwargs !! "name" = Some (FStr "Drama")) ∧
     (∀ k, k ≠ "name" → kwargs !! k = params !! k)) ∧
  (∃ kwargs : gmap string (field Inst),
     sample_actor create params db = create "Actor" kwargs db ∧
     (∀ k v, params !! k = Some v → kwargs !! k = Some v) ∧
     (params !! "first_name" = None →
      kwargs !! "first_name" = Some (FStr "George")) ∧
     (params !! "last_name" = None →
      kwargs !! "last_name" = Some (FStr "Clooney")) ∧
     (∀ k, k ∉ ["first_name"; "last_name"] → kwargs !! k = params !! k)).
Proof.
  split; eexists; (split; [reflexivity|]).
  - split; [|split].
    + intros k v H. lookup_defaults.
    + intros H. lookup_defaults.
    + intros k Hk. lookup_defaults.
  - split; [|split; [|split]].
    + intros k v H. lookup_defaults.
    + intros H. lookup_defaults.
    + intros H. lookup_defaults.
    + intros k. rewrite !elem_of_cons, elem_of_nil. intros Hk.
      lookup_defaults.
Qed.

(** X10. [sample_movie_session], called with [movie] and keywords
    [params], first creates a cinema
    hall "Blue" of 20 rows of 20 seats, also when [params] brings a
    [cinema_hall] of its own. If that fails, the error is the result and no
    session is created. Otherwise the session is created in the database
    the hall was added to, for the given movie, in the caller's hall and
    at the caller's time when given, else in the new hall on 2022-06-02 at
    14:00. ([params] cannot hold [movie]: the call binds it to the first
    parameter.) *)
Theorem sample_movie_session_kwargs movie
    (params : gmap string (field Inst)) db :
  params !! "movie" = None →
  (∀ e db',
     create "CinemaHall"
       {[ "name" := FStr "Blue"; "rows" := FInt 20;
          "seats_in_row" := FInt 20 ]} db = (inl e, db') →
     sample_movie_session create movie params db = (inl e, db')) ∧
  (∀ hall db',
     create "CinemaHall"
       {[ "name" := FStr "Blue"; "rows" := FInt 20;
          "seats_in_row" := FInt 20 ]} db = (inr hall, db') →
     ∃ kwargs : gmap string (field Inst),
       sample_movie_session create movie params db
       = create "MovieSession" kwargs db' ∧
       kwargs !! "movie" = Some movie ∧
       kwargs !! "cinema_hall"
       = Some (default (FInst hall) (params !! "cinema_hall")) ∧
       kwargs !! "show_time"
       = Some (default (FDateTime 2022 6 2 14 0 0) (params !! "show_time")) ∧
       (∀ k, k ∉ ["show_time"; "movie"; "cinema_hall"] →
             kwargs !! k = params !! k)).
Proof.
  intros Hmovie. split.
  - intros e db' H. unfold sample_movie_session. by rewrite H.
  - intros hall db' H. unfold sample_movie_session. rewrite H.
    eexists. split; [reflexivity|].
    split; [|split; [|split]].
    + lookup_defaults.
    + lookup_defaults.
    + lookup_defaults.
    + intros k. rewrite !elem_of_cons, elem_of_nil. intros Hk.
      lookup_defaults.
Qed.

End FixtureProperties.

Lemma sample_movie_session_kwargs_witness :
  ({[ "cinema_hall" := FInst 7 ]} : gmap string (field nat)) !! "movie"
  = None ∧
  (∀ e db',
     recording_create [] "CinemaHall"
       {[ "name" := FStr "Blue"; "rows" := FInt 20;
          "seats_in_row" := FInt 20 ]} [] = (inl e, db') →
     sample_movie_session (recording_create []) (FInst 0)
       {[ "cinema_hall" := FInst 7 ]} [] = (inl e, db')) ∧
  (∀ hall db',
     recording_create [] "CinemaHall"
       {[ "name" := FStr "Blue"; "rows" := FInt 20;
          "seats_in_row" := FInt 20 ]} [] = (inr hall, db') →
     ∃ kwargs : gmap string (field nat),
       sample_movie_session (recording_create []) (FInst 0)
         {[ "cinema_hall" := FInst 7 ]} []
       = recording_create [] "MovieSession" kwargs db' ∧
       kwargs !! "movie" = Some (FInst 0) ∧
       kwargs !! "cinema_hall"
       = Some (default (FInst hall)
                 (({[ "cinema_hall" := FInst 7 ]}
                   : gmap string (field nat)) !! "cinema_hall")) ∧
       kwargs !! "show_time"
       = Some (default (FDateTime 2022 6 2 14 0 0)
                 (({[ "cinema_hall" := FInst 7 ]}
                   : gmap string (field nat)) !! "show_time")) ∧
       (∀ k, k ∉ ["show_time"; "movie"; "cinema_hall"] →
             kwargs !! k
             = ({[ "cinema_hall" := FInst 7 ]}
                : gmap string (field nat)) !! k)).
Proof.
  split; [reflexivity|].
  apply (sample_movie_session_kwargs (recording_create []) (FInst 0)
           {[ "cinema_hall" := FInst 7 ]} []).
  reflexivity.
Defined.

(** The fixtures on the recording ORM: [sample_movie(title="The Ring")] of
    [MovieApiTests.setUp]; a session in a hall of the caller's, which
    leaves the hall "Blue" behind all the same; and a session when halls
    cannot be created. *)
Example sample_movie_The_Ring :
  sample_movie (recording_create []) {[ "title" := FStr "The Ring" ]} []
  = (inr 0,
     [("Movie",
       {[ "title" := FStr "The Ring";
          "description" := FStr "Sample description";
          "duration" := FInt 90 ]})]).
Proof. vm_compute. reflexivity. Qed.

Example sample_movie_session_own_hall :
  sample_movie_session (recording_create []) (FInst 0)
    {[ "cinema_hall" := FInst 7 ]} []
  = (inr 1,
     [("MovieSession",
       {[ "show_time" := FDateTime 2022 6 2 14 0 0;
          "movie" := FInst 0;
          "cinema_hall" := FInst 7 ]});
      ("CinemaHall",
       {[ "name" := FStr "Blue"; "rows" := FInt 20;
          "seats_in_row" := FInt 20 ]})]).
Proof. vm_compute. reflexivity. Qed.

Example sample_movie_session_no_hall :
  sample_movie_session (recording_create ["CinemaHall"]) (FInst 0) ∅ []
  = (inl "CinemaHall", []).
Proof. reflexivity. Qed.
